(** * Telegram multi-utility bot: command handlers and their replies

    A shallow embedding of [main.py], [commands/fun.py],
    [commands/utilities.py] and [commands/ai.py].

    - Python values coming out of [r.json()] are the inductive [pyval].
    - A Python [str] is a list of Unicode code points, so that slicing
      ([text[:3000]]) counts characters the way Python does.
    - A handler is a computation in a small exception-and-trace monad: the
      trace records every outbound HTTP call and every reply, in order, and
      the result says whether the handler returned, let an exception out,
      or never came back from a call.
    - The remote services, the process environment, the clock, and the
      tables and checks that the interpreter and the pinned libraries
      bring along are inputs ([world]). *)

From Stdlib Require Import List NArith ZArith String Ascii Bool Lia.
From Stdlib Require DecimalString.
Import ListNotations.

Set Implicit Arguments.
Set Warnings "-register-all".

(** ** Python strings *)

Module Py.

(** A Python string: its code points, in order. *)
Definition pystr := list N.

(** An ASCII literal of the source as a Python string. *)
Definition lit (s : string) : pystr :=
  map N_of_ascii (list_ascii_of_string s).

(** Code points of the two non-ASCII characters the source uses. *)
Definition em_dash : N := 8212.       (* U+2014 *)
Definition degree_sign : N := 176.    (* U+00B0 *)

Fixpoint str_eqb (a b : pystr) : bool :=
  match a, b with
  | [], [] => true
  | x :: a', y :: b' => N.eqb x y && str_eqb a' b'
  | _, _ => false
  end.

(** [sep.join(parts)] *)
Fixpoint join (sep : pystr) (parts : list pystr) : pystr :=
  match parts with
  | [] => []
  | [p] => p
  | p :: rest => p ++ sep ++ join sep rest
  end.

(** Whitespace as [str.strip()] with no argument sees it
    (the code points for which [str.isspace] holds). *)
Definition is_space (c : N) : bool :=
  ((9 <=? c) && (c <=? 13) || (28 <=? c) && (c <=? 32)
   || (c =? 133) || (c =? 160) || (c =? 5760)
   || (8192 <=? c) && (c <=? 8202)
   || (c =? 8232) || (c =? 8233) || (c =? 8239) || (c =? 8287)
   || (c =? 12288))%N.

Fixpoint lstrip (s : pystr) : pystr :=
  match s with
  | [] => []
  | c :: s' => if is_space c then lstrip s' else s
  end.

Definition rstrip (s : pystr) : pystr := List.rev (lstrip (List.rev s)).

(** [s.strip()] *)
Definition strip (s : pystr) : pystr := rstrip (lstrip s).

(** A string of ASCII characters only. *)
Definition is_ascii (s : pystr) : bool := forallb (fun c => (c <? 128)%N) s.

(** What the interpreter's Unicode database decides: which characters
    [repr] keeps as they are ([str.isprintable]), and the case mappings
    [str.lower] and [str.capitalize] of strings that are not pure ASCII.
    The database comes with the interpreter, not with the repository, and
    is taken as given. *)
Record unicode : Type :=
  { isprintable : N -> bool;
    lower_table : pystr -> pystr;
    capitalize_table : pystr -> pystr }.

Definition ascii_lower (c : N) : N :=
  if ((65 <=? c) && (c <=? 90))%N then (c + 32)%N else c.

Definition ascii_upper (c : N) : N :=
  if ((97 <=? c) && (c <=? 122))%N then (c - 32)%N else c.

(** [s.lower()]: computed on an ASCII string, looked up otherwise. *)
Definition lower (u : unicode) (s : pystr) : pystr :=
  if is_ascii s then map ascii_lower s else lower_table u s.

(** [s.capitalize()]: first character upper-cased, the rest lower-cased;
    computed on an ASCII string, looked up otherwise. *)
Definition capitalize (u : unicode) (s : pystr) : pystr :=
  if is_ascii s then
    match s with
    | [] => []
    | c :: s' => ascii_upper c :: map ascii_lower s'
    end
  else capitalize_table u s.

(** [l[:n]] for a non-negative [n]. *)
Definition slice_to {A : Type} (n : nat) (l : list A) : list A := firstn n l.

(** ** Numbers *)

(** [str(z)] for a Python [int]. *)
Definition int_str (z : Z) : pystr :=
  lit (DecimalString.NilZero.string_of_int (Z.to_int z)).

(** A Python [float], given by what [repr] computes from the binary double:
    its sign and the digits [d1 d2 ... dn] of the shortest decimal that
    reads back as the same double, with the position [decpt] of the decimal
    point (the value is [0.d1...dn * 10^decpt]); or an infinity or NaN. *)
Inductive pyfloat : Type :=
| FFin (neg : bool) (digits : list nat) (decpt : Z)
| FInf (neg : bool)
| FNan.

Definition digit_cp (d : nat) : N := (48 + N.of_nat d)%N.

Definition digits_str (ds : list nat) : pystr := map digit_cp ds.

Definition zeros (n : nat) : pystr := repeat 48%N n.

(** The exponent of the scientific form: sign and at least two digits. *)
Definition exp_str (e : Z) : pystr :=
  let a := int_str (Z.abs e) in
  (if (e <? 0)%Z then lit "-" else lit "+")
    ++ (if (Z.abs e <? 10)%Z then lit "0" ++ a else a).

(** [repr(x)] for a float: scientific when [decpt <= -4] or [decpt > 16],
    positional (with [.0] added to a whole number) otherwise. *)
Definition float_repr (f : pyfloat) : pystr :=
  match f with
  | FNan => lit "nan"
  | FInf neg => if neg then lit "-inf" else lit "inf"
  | FFin neg ds decpt =>
      (if neg then lit "-" else [])
      ++
      (if ((decpt <=? -4) || (16 <? decpt))%Z then
         match ds with
         | [] => lit "0"
         | d :: [] => [digit_cp d]
         | d :: rest => digit_cp d :: lit "." ++ digits_str rest
         end ++ lit "e" ++ exp_str (decpt - 1)
       else if (decpt <=? 0)%Z then
         lit "0." ++ zeros (Z.to_nat (- decpt)) ++ digits_str ds
       else if (Z.of_nat (List.length ds) <=? decpt)%Z then
         digits_str ds ++ zeros (Z.to_nat decpt - List.length ds) ++ lit ".0"
       else
         digits_str (firstn (Z.to_nat decpt) ds) ++ lit "."
           ++ digits_str (skipn (Z.to_nat decpt) ds))
  end.

(** ** Values *)

(** What [r.json()] can return.  A dict keeps its keys in insertion order
    (the order shows in [str(data)]). *)
Inductive pyval : Type :=
| PNone
| PBool (b : bool)
| PInt (z : Z)
| PFloat (f : pyfloat)
| PStr (s : pystr)
| PList (l : list pyval)
| PDict (d : list (pystr * pyval)).

Definition hex_digit (n : N) : N :=
  if (n <? 10)%N then (48 + n)%N else (87 + n)%N.

(** The last [width] hexadecimal digits of [c], most significant first. *)
Fixpoint hex (width : nat) (c : N) : pystr :=
  match width with
  | O => []
  | S k => hex k (c / 16) ++ [hex_digit (c mod 16)]
  end.

(** One character inside [repr] of a string quoted with [q]: the backslash
    and the quote are escaped, tab, newline and return have their letters,
    the other ASCII control characters are written [\xhh], the other ASCII
    characters are kept, and a character outside ASCII is kept when the
    database has it printable and written [\xhh], [\uhhhh] or [\Uhhhhhhhh]
    when not. *)
Definition repr_char (u : unicode) (q : N) (c : N) : pystr :=
  if (c =? 92)%N then lit "\\"
  else if (c =? q)%N then 92%N :: [c]
  else if (c =? 9)%N then lit "\t"
  else if (c =? 10)%N then lit "\n"
  else if (c =? 13)%N then lit "\r"
  else if ((c <? 32) || (c =? 127))%N then lit "\x" ++ hex 2 c
  else if (c <? 127)%N then [c]
  else if isprintable u c then [c]
  else if (c <? 256)%N then lit "\x" ++ hex 2 c
  else if (c <? 65536)%N then lit "\u" ++ hex 4 c
  else lit "\U" ++ hex 8 c.

Definition has_cp (c : N) (s : pystr) : bool := existsb (N.eqb c) s.

(** [repr(s)] for a string: single quotes, unless the string has a single
    quote and no double quote. *)
Definition str_repr (u : unicode) (s : pystr) : pystr :=
  let q := if has_cp 39 s && negb (has_cp 34 s) then 34%N else 39%N in
  q :: flat_map (repr_char u q) s ++ [q].

(** [repr(v)] *)
Fixpoint repr (u : unicode) (v : pyval) : pystr :=
  match v with
  | PNone => lit "None"
  | PBool b => if b then lit "True" else lit "False"
  | PInt z => int_str z
  | PFloat f => float_repr f
  | PStr s => str_repr u s
  | PList l => lit "[" ++ join (lit ", ") (map (repr u) l) ++ lit "]"
  | PDict d =>
      lit "{"
      ++ join (lit ", ")
           (map (fun kv => match kv with
                           | (k, x) => str_repr u k ++ lit ": " ++ repr u x
                           end) d)
      ++ lit "}"
  end.

(** [str(v)], which is also what an f-string field [{v}] inserts. *)
Definition str (u : unicode) (v : pyval) : pystr :=
  match v with
  | PStr s => s
  | _ => repr u v
  end.

(** Truth value of an optional string: [None] and [''] are false. *)
Definition truthy (o : option pystr) : bool :=
  match o with
  | Some (_ :: _) => true
  | _ => false
  end.

(** [str(o)] for an optional string such as the result of [os.getenv]. *)
Definition opt_str (o : option pystr) : pystr :=
  match o with
  | Some s => s
  | None => lit "None"
  end.

(** First binding of a key in a dict. *)
Fixpoint lookup (k : pystr) (d : list (pystr * pyval)) : option pyval :=
  match d with
  | [] => None
  | (k', v) :: d' => if str_eqb k k' then Some v else lookup k d'
  end.

End Py.

(** ** Effects: exceptions, outbound calls, replies *)

Module Eff.
Import Py.

(** The exceptions that occur.  [SystemExit] derives from [BaseException]
    only; the others derive from [Exception]. *)
Inductive exn : Type :=
| SystemExit (msg : pystr)
| TokenValidationError  (* aiogram refuses the shape of the bot token *)
| RequestException      (* the HTTP call itself failed: network error *)
| Timeout               (* the HTTP call ran into its timeout *)
| JSONDecodeError       (* [r.json()] on a body that is not JSON *)
| ValidationError       (* aiogram refuses the arguments of a reply *)
| KeyError
| IndexError
| TypeError
| AttributeError.

(** What [except Exception] catches. *)
Definition is_Exception (e : exn) : bool :=
  match e with
  | SystemExit _ => false
  | _ => true
  end.

Inductive request : Type :=
| Get (url : pystr)
| Post (url : pystr) (headers : list (pystr * pystr)) (json : pyval)
       (timeout : Z).

(** A response: its status and its body as [r.json()] decodes it
    ([None]: the body is not JSON). *)
Record response : Type := { status_code : Z; body : option pyval }.

(** What a remote service does with a request: the call raises, the
    service answers, or the service never answers. *)
Inductive outcome : Type :=
| Failed
| Answered (r : response)
| Silent.

Record datetime : Type :=
  { year : Z; month : Z; day : Z; hour : Z; minute : Z; second : Z }.

(** The surroundings of the process: environment variables (after
    [load_dotenv()]), the remote services, the clock, the Unicode database
    of the interpreter, and the check aiogram makes of a bot token when
    [Bot(token=...)] is built. *)
Record world : Type :=
  { getenv : pystr -> option pystr;
    remote : request -> outcome;
    now : datetime;
    unicode_db : unicode;
    validate_token : pystr -> bool }.

Record user : Type := { first_name : pystr }.

(** An incoming message: its sender and its text. *)
Record message : Type :=
  { from_user : option user; text : option pystr }.

(** What a handler does that can be seen from outside. *)
Inductive event : Type :=
| Call (rq : request)
| Reply (text : pyval)
| ReplyMarkup (text : pyval) (buttons : list pystr) (resize_keyboard : bool)
| ReplyPhoto (photo caption : pyval)
| Unhandled (e : exn).     (* logged by the dispatcher *)

(** How a computation ends: it returns, it raises, or it never comes back
    from a call. *)
Inductive result (A : Type) : Type :=
| Ok (a : A)
| Raised (e : exn)
| Blocked.
Arguments Raised {A} e.
Arguments Blocked {A}.

(** A computation: its result and the events it produced, in order. *)
Definition M (A : Type) : Type := (result A * list event)%type.

Definition ret {A : Type} (a : A) : M A := (Ok a, []).

Definition raise {A : Type} (e : exn) : M A := (Raised e, []).

Definition block {A : Type} : M A := (Blocked, []).

Definition bind {A B : Type} (m : M A) (k : A -> M B) : M B :=
  match m with
  | (Ok a, t) => let (r, t') := k a in (r, t ++ t')
  | (Raised e, t) => (Raised e, t)
  | (Blocked, t) => (Blocked, t)
  end.

Definition emit (e : event) : M unit := (Ok tt, [e]).

Definition emit_all (t : list event) : M unit := (Ok tt, t).

(** [try: body / except Exception: handler] *)
Definition try_except (body handler : M unit) : M unit :=
  match body with
  | (Ok a, t) => (Ok a, t)
  | (Raised e, t) =>
      if is_Exception e then let (r, t') := handler in (r, t ++ t')
      else (Raised e, t)
  | (Blocked, t) => (Blocked, t)
  end.

Definition outcome_of {A : Type} (m : M A) : result A := fst m.
Definition trace {A : Type} (m : M A) : list event := snd m.

(** The outbound calls of a trace. *)
Definition calls (t : list event) : list request :=
  flat_map (fun e => match e with Call rq => [rq] | _ => [] end) t.

(** The replies of a trace (text replies, replies with a keyboard, photos). *)
Definition replies (t : list event) : list event :=
  filter (fun e => match e with
                   | Reply _ | ReplyMarkup _ _ _ | ReplyPhoto _ _ => true
                   | _ => false
                   end) t.

End Eff.

Import Py Eff.

Declare Scope py_scope.
Delimit Scope py_scope with py.
Notation "x <- m ;; k" := (bind m (fun x => k))
  (at level 61, m at next level, right associativity) : py_scope.
Notation "m ;;; k" := (bind m (fun _ => k))
  (at level 61, right associativity) : py_scope.
Open Scope py_scope.

(** ** The library calls the handlers make *)

(** [requests.get(url)]: no timeout is given, so a service that never
    answers keeps the call from returning. *)
Definition requests_get (w : world) (url : pystr) : M response :=
  emit (Call (Get url)) ;;;
  match remote w (Get url) with
  | Failed => raise RequestException
  | Answered r => ret r
  | Silent => block
  end.

(** [requests.post(url, headers=..., json=..., timeout=...)]: with a
    timeout, a service that never answers makes the call raise. *)
Definition requests_post (w : world) (url : pystr)
    (headers : list (pystr * pystr)) (payload : pyval) (timeout : Z)
  : M response :=
  emit (Call (Post url headers payload timeout)) ;;;
  match remote w (Post url headers payload timeout) with
  | Failed => raise RequestException
  | Answered r => ret r
  | Silent => raise Timeout
  end.

(** [r.json()] *)
Definition json (r : response) : M pyval :=
  match body r with
  | Some v => ret v
  | None => raise JSONDecodeError
  end.

(** [message.get_args()].  [requirements.txt] pins aiogram 3.0.0b7, and the
    imports of the source exist in aiogram 3 only; its [Message] has no
    [get_args] (that was a method of aiogram 2), so looking the attribute
    up raises. *)
Definition get_args (m : message) : M (option pystr) :=
  raise AttributeError.

(** What aiogram takes for a field declared [str]: a string, or a number
    or boolean, which it turns into its text; [None], lists and objects are
    refused. *)
Definition as_text (v : pyval) : option pystr :=
  match v with
  | PStr s => Some s
  | PInt z => Some (int_str z)
  | PFloat f => Some (float_repr f)
  | PBool b => Some (if b then lit "True" else lit "False")
  | _ => None
  end.

(** [message.reply(text)]: aiogram checks the text before it sends it.
    The platform is taken to deliver every text it is handed. *)
Definition reply (text : pyval) : M unit :=
  match as_text text with
  | Some s => emit (Reply (PStr s))
  | None => raise ValidationError
  end.

(** [message.reply_photo(photo=..., caption=...)]: the photo has to pass
    for a string, the caption for a string or [None]. *)
Definition reply_photo (photo caption : pyval) : M unit :=
  match as_text photo with
  | None => raise ValidationError
  | Some p =>
      match caption with
      | PNone => emit (ReplyPhoto (PStr p) PNone)
      | _ =>
          match as_text caption with
          | Some c => emit (ReplyPhoto (PStr p) (PStr c))
          | None => raise ValidationError
          end
      end
  end.

(** [v.get(k, default)]: only a dict has [get]. *)
Definition get (v : pyval) (k : pystr) (default : pyval) : M pyval :=
  match v with
  | PDict d => ret (match lookup k d with Some x => x | None => default end)
  | _ => raise AttributeError
  end.

(** [v[k]] for a string key [k]. *)
Definition item (v : pyval) (k : pystr) : M pyval :=
  match v with
  | PDict d => match lookup k d with Some x => ret x | None => raise KeyError end
  | _ => raise TypeError
  end.

(** [v[0]] *)
Definition item0 (v : pyval) : M pyval :=
  match v with
  | PList (x :: _) => ret x
  | PList [] => raise IndexError
  | PStr (c :: _) => ret (PStr [c])
  | PStr [] => raise IndexError
  | PDict _ => raise KeyError       (* the keys of a JSON object are strings *)
  | _ => raise TypeError
  end.

(** [v[:n]]: strings and lists can be sliced. *)
Definition slice (v : pyval) (n : nat) : M pyval :=
  match v with
  | PStr s => ret (PStr (slice_to n s))
  | PList l => ret (PList (slice_to n l))
  | _ => raise TypeError
  end.

(** [isinstance(v, list) and v] as a condition. *)
Definition nonempty_list (v : pyval) : bool :=
  match v with
  | PList (_ :: _) => true
  | _ => false
  end.

Definition is_None (v : pyval) : bool :=
  match v with
  | PNone => true
  | _ => false
  end.

(** ** commands/fun.py *)

Module Fun.

Definition joke_url : pystr :=
  lit "https://v2.jokeapi.dev/joke/Any?type=single".

Definition cmd_joke (w : world) (message : message) : M unit :=
  try_except
    (r <- requests_get w joke_url ;;
     data <- json r ;;
     text <- get data (lit "joke") (PStr (lit "Couldn't fetch joke")) ;;
     reply text)
    (reply (PStr (lit "Joke API error"))).

Definition quote_url : pystr := lit "https://zenquotes.io/api/random".

Definition cmd_quote (w : world) (message : message) : M unit :=
  try_except
    (r <- requests_get w quote_url ;;
     body <- json r ;;
     data <- item0 body ;;
     q <- get data (lit "q") PNone ;;
     a <- get data (lit "a") PNone ;;
     reply (PStr (34%N :: str (unicode_db w) q
                  ++ 34%N :: 32%N :: em_dash :: 32%N
                  :: str (unicode_db w) a)))
    (reply (PStr (lit "Quote API error"))).

Definition meme_url : pystr := lit "https://meme-api.herokuapp.com/gimme".

Definition cmd_meme (w : world) (message : message) : M unit :=
  try_except
    (r <- requests_get w meme_url ;;
     data <- json r ;;
     photo <- item data (lit "url") ;;
     caption <- get data (lit "title") (PStr []) ;;
     reply_photo photo caption)
    (reply (PStr (lit "No meme for now"))).

Definition router (w : world) : list (pystr * (message -> M unit)) :=
  [ (lit "joke", cmd_joke w);
    (lit "quote", cmd_quote w);
    (lit "meme", cmd_meme w) ].

End Fun.

(** ** commands/utilities.py *)

Module Utilities.

Definition OPENWEATHER_KEY (w : world) : option pystr :=
  getenv w (lit "OPENWEATHER_API_KEY").

Definition weather_url (w : world) (city : pystr) : pystr :=
  lit "https://api.openweathermap.org/data/2.5/weather?q=" ++ city
  ++ lit "&appid=" ++ opt_str (OPENWEATHER_KEY w) ++ lit "&units=metric".

Definition cmd_weather (w : world) (message : message) : M unit :=
  args <- get_args message ;;
  let city := if truthy args then option_map strip args else None in
  if negb (truthy city) then
    reply (PStr (lit "Usage: /weather city_name"))
  else
    try_except
      (let url := weather_url w (opt_str city) in
       r <- requests_get w url ;;
       if negb (status_code r =? 200)%Z then
         reply (PStr (lit "Weather not found or API key missing"))
       else
         data <- json r ;;
         weather <- item data (lit "weather") ;;
         first <- item0 weather ;;
         desc <- item first (lit "description") ;;
         main <- item data (lit "main") ;;
         temp <- item main (lit "temp") ;;
         reply (PStr (lit "Weather in " ++ opt_str city ++ lit ": "
                      ++ str (unicode_db w) desc ++ lit ", "
                      ++ str (unicode_db w) temp ++ degree_sign :: lit "C")))
      (reply (PStr (lit "Weather API error"))).

Definition crypto_url (coin : pystr) : pystr :=
  lit "https://api.coingecko.com/api/v3/simple/price?ids=" ++ coin
  ++ lit "&vs_currencies=usd".

(** [args.strip().lower() if args else 'bitcoin'] *)
Definition crypto_coin (w : world) (args : option pystr) : pystr :=
  match args with
  | Some (c :: a) => lower (unicode_db w) (strip (c :: a))
  | _ => lit "bitcoin"
  end.

Definition cmd_crypto (w : world) (message : message) : M unit :=
  args <- get_args message ;;
  let coin := crypto_coin w args in
  try_except
    (r <- requests_get w (crypto_url coin) ;;
     data <- json r ;;
     entry <- get data coin (PDict []) ;;
     price <- get entry (lit "usd") PNone ;;
     if is_None price then
       reply (PStr (lit "Coin not found"))
     else
       reply (PStr (capitalize (unicode_db w) coin ++ lit " price: $"
                    ++ str (unicode_db w) price)))
    (reply (PStr (lit "CoinGecko API error"))).

(** A number in decimal, padded with zeros on the left to [width] digits. *)
Definition padded (width : nat) (z : Z) : pystr :=
  let s := int_str z in
  zeros (width - List.length s) ++ s.

(** [now.strftime('%Y-%m-%d %H:%M:%S')]: the year as it is, the other
    fields on two digits. *)
Definition strftime (t : datetime) : pystr :=
  int_str (year t) ++ lit "-" ++ padded 2 (month t) ++ lit "-"
  ++ padded 2 (day t) ++ lit " " ++ padded 2 (hour t) ++ lit ":"
  ++ padded 2 (minute t) ++ lit ":" ++ padded 2 (second t).

Definition cmd_time (w : world) (message : message) : M unit :=
  reply (PStr (lit "Server time: " ++ strftime (now w))).

Definition router (w : world) : list (pystr * (message -> M unit)) :=
  [ (lit "weather", cmd_weather w);
    (lit "crypto", cmd_crypto w);
    (lit "time", cmd_time w) ].

End Utilities.

(** ** commands/ai.py *)

Module Ai.

Definition HUGGINGFACE_KEY (w : world) : option pystr :=
  getenv w (lit "HUGGINGFACE_API_KEY").

Definition ask_url : pystr :=
  lit "https://api-inference.huggingface.co/models/gpt2".

Definition ask_headers (w : world) : list (pystr * pystr) :=
  [ (lit "Authorization", lit "Bearer " ++ opt_str (HUGGINGFACE_KEY w));
    (lit "Content-Type", lit "application/json") ].

Definition cmd_ask (w : world) (message : message) : M unit :=
  prompt <- get_args message ;;
  if negb (truthy prompt) then
    reply (PStr (lit "Usage: /ask your question"))
  else if negb (truthy (HUGGINGFACE_KEY w)) then
    reply (PStr (lit "Sorry, no external AI key configured. You asked: "
                 ++ opt_str prompt))
  else
    try_except
      (let headers := ask_headers w in
       let payload := PDict [(lit "inputs", PStr (opt_str prompt))] in
       r <- requests_post w ask_url headers payload 20 ;;
       data <- json r ;;
       text <- (if nonempty_list data then
                  first <- item0 data ;;
                  get first (lit "generated_text")
                      (PStr (str (unicode_db w) data))
                else
                  get data (lit "generated_text")
                      (PStr (str (unicode_db w) data))) ;;
       shown <- slice text 3000 ;;
       reply shown)
      (reply (PStr (lit "AI API error or timeout"))).

Definition router (w : world) : list (pystr * (message -> M unit)) :=
  [ (lit "ask", cmd_ask w) ].

End Ai.

(** ** main.py *)

Module Main.

Definition TELEGRAM_TOKEN (w : world) : option pystr :=
  getenv w (lit "TELEGRAM_TOKEN").

(** The reply keyboard [kb]. *)
Definition kb : list pystr := [lit "/ask"; lit "/quote"; lit "/joke"].

Definition cmd_start (message : message) : M unit :=
  match from_user message with
  | None => raise AttributeError
  | Some u =>
      emit (ReplyMarkup
              (PStr (lit "Hey " ++ first_name u
                     ++ lit "! I'm alive. Type /help to see commands."))
              kb true)
  end.

Definition nl : pystr := [10%N].

Definition help_text : pystr :=
  lit "/start - Start bot" ++ nl
  ++ lit "/help - This help" ++ nl
  ++ lit "/ask <text> - Ask AI (local HF or fallback)" ++ nl
  ++ lit "/quote - Random inspirational quote" ++ nl
  ++ lit "/joke - Random joke" ++ nl
  ++ lit "/weather <city> - Weather info (OpenWeather)" ++ nl
  ++ lit "/crypto <id> - Crypto price (CoinGecko)" ++ nl
  ++ lit "/todo, /notes - Personal todo & notes (local json)" ++ nl.

Definition cmd_help (message : message) : M unit :=
  reply (PStr help_text).

(** The dispatcher after the module has been loaded: its own two handlers,
    then the three routers in the order they are included. *)
Definition dp (w : world) : list (pystr * (message -> M unit)) :=
  [ (lit "start", cmd_start); (lit "help", cmd_help) ]
  ++ Fun.router w ++ Utilities.router w ++ Ai.router w.

(** The names of the commands registered with a dispatcher. *)
Definition registered (table : list (pystr * (message -> M unit)))
  : list pystr := map fst table.

(** An incoming command: its name and the message that carries it. *)
Record update : Type := { command : pystr; msg : message }.

(** Modelled from the spec: the dispatch of one invocation (section 4.1),
    which the source leaves to aiogram's dispatcher.  The command is looked
    up in the table; if found, its handler runs; if not, nothing is
    sent. *)
Fixpoint feed_update (table : list (pystr * (message -> M unit)))
    (u : update) : M unit :=
  match table with
  | [] => ret tt
  | (name, handler) :: rest =>
      if str_eqb (command u) name then handler (msg u)
      else feed_update rest u
  end.

(** Modelled from the spec: the dispatch loop (sections 5 and 7), which
    the source leaves to [dp.start_polling(bot)].  Every update is
    dispatched on its own and no handler's failure affects another
    invocation: an [Exception] that leaves a handler is logged, a handler
    that does not come back from its call is left pending, and the loop
    goes on.  The events are listed update by update. *)
Fixpoint start_polling (table : list (pystr * (message -> M unit)))
    (updates : list update) : M unit :=
  match updates with
  | [] => ret tt
  | u :: rest =>
      match feed_update table u with
      | (Ok _, t) => (emit_all t) ;;; start_polling table rest
      | (Raised e, t) =>
          if is_Exception e then
            emit_all (t ++ [Unhandled e]) ;;; start_polling table rest
          else (Raised e, t)
      | (Blocked, t) => (emit_all t) ;;; start_polling table rest
      end
  end.

(** The program: the token is checked when the module is loaded, then
    [Bot(token=...)] is built, which checks the shape of the token; then
    [main()] polls. *)
Definition main (w : world) (updates : list update) : M unit :=
  if negb (truthy (TELEGRAM_TOKEN w)) then
    raise (SystemExit (lit "Please set TELEGRAM_TOKEN in .env file"))
  else if negb (validate_token w (opt_str (TELEGRAM_TOKEN w))) then
    raise TokenValidationError
  else
    start_polling (dp w) updates.

End Main.

(** ** Vocabulary of the properties *)

(** The handlers that get as far as their remote call. *)
Inductive fetching : Type := Joke | Quote | Meme.

Definition run (h : fetching) : world -> message -> M unit :=
  match h with
  | Joke => Fun.cmd_joke
  | Quote => Fun.cmd_quote
  | Meme => Fun.cmd_meme
  end.

Definition endpoint (h : fetching) : pystr :=
  match h with
  | Joke => Fun.joke_url
  | Quote => Fun.quote_url
  | Meme => Fun.meme_url
  end.

(** The text each of them sends from its [except] branch. *)
Definition fallback (h : fetching) : pystr :=
  match h with
  | Joke => lit "Joke API error"
  | Quote => lit "Quote API error"
  | Meme => lit "No meme for now"
  end.

(** A world that differs from [w] in what the remote services do. *)
Definition with_remote (w : world) (f : request -> outcome) : world :=
  {| getenv := getenv w;
     remote := f;
     now := now w;
     unicode_db := unicode_db w;
     validate_token := validate_token w |}.

(** The remote service that answers every request with [r]. *)
Definition answering (r : response) : request -> outcome :=
  fun _ => Answered r.

(** Values a reply takes as its text. *)
Definition is_text (v : pyval) : bool :=
  match as_text v with
  | Some _ => true
  | None => false
  end.

(** The object /quote reads: the first element of a list. *)
Definition first_object (data : pyval) : option (list (pystr * pyval)) :=
  match data with
  | PList (PDict d :: _) => Some d
  | _ => None
  end.

(** A decoded body the handler cannot turn into its reply: for /joke, a
    value that is not an object, or a [joke] that a reply refuses; for
    /quote, anything but a list that starts with an object; for /meme, a
    value that is not an object, an object without [url], or a [url] or
    [title] that a photo reply refuses. *)
Definition unusable (h : fetching) (data : pyval) : bool :=
  match h with
  | Joke =>
      match data with
      | PDict d =>
          match lookup (lit "joke") d with
          | Some v => negb (is_text v)
          | None => false
          end
      | _ => true
      end
  | Quote =>
      match first_object data with
      | Some _ => false
      | None => true
      end
  | Meme =>
      match data with
      | PDict d =>
          match lookup (lit "url") d with
          | Some p =>
              negb (is_text p)
              || match lookup (lit "title") d with
                 | Some c => negb (is_None c || is_text c)
                 | None => false
                 end
          | None => true
          end
      | _ => true
      end
  end.

(** Ways the remote call of a handler fails. *)
Inductive failure : Type :=
| CallRaises                               (* network error, timeout *)
| BadBody (status : Z)                     (* the body is not JSON *)
| Unusable (status : Z) (data : pyval).    (* JSON the handler cannot use *)

Definition failing_remote (f : failure) : request -> outcome :=
  fun _ =>
    match f with
    | CallRaises => Failed
    | BadBody st => Answered {| status_code := st; body := None |}
    | Unusable st data =>
        Answered {| status_code := st; body := Some data |}
    end.

(** The failures a handler turns into the text of its [except] branch. *)
Definition handles (h : fetching) (f : failure) : bool :=
  match f with
  | CallRaises => true
  | BadBody _ => true
  | Unusable _ data => unusable h data
  end.

(** The commands a help text names: after each slash, the run of
    lower-case letters that follows. *)
Fixpoint name_prefix (s : pystr) : pystr :=
  match s with
  | c :: s' => if ((97 <=? c) && (c <=? 122))%N then c :: name_prefix s' else []
  | [] => []
  end.

Fixpoint listed_commands (s : pystr) : list pystr :=
  match s with
  | [] => []
  | c :: s' =>
      if (c =? 47)%N then name_prefix s' :: listed_commands s'
      else listed_commands s'
  end.

Definition mentions (names : list pystr) (c : pystr) : bool :=
  existsb (str_eqb c) names.

Definition is_reply (e : event) : bool :=
  match e with
  | Reply _ | ReplyMarkup _ _ _ | ReplyPhoto _ _ => true
  | _ => false
  end.

(** No event at all, and the computation returns or raises something that
    [except Exception] catches. *)
Definition quiet {A : Type} (m : M A) : Prop :=
  trace m = []
  /\ match outcome_of m with
     | Ok _ => True
     | Raised e => is_Exception e = true
     | Blocked => False
     end.

(** What follows the call inside a [try]: the reply and nothing else, or
    nothing and an [Exception]. *)
Definition replies_or_raises (m : M unit) : Prop :=
  match m with
  | (Ok _, [r]) => is_reply r = true
  | (Raised e, []) => is_Exception e = true
  | _ => False
  end.

(** The text of a field as an f-string shows it, when the field is a
    string, is [None], or is absent (which [get] turns into [None]). *)
Definition shown (k : pystr) (d : list (pystr * pyval)) : option pystr :=
  match lookup k d with
  | None => Some (lit "None")
  | Some PNone => Some (lit "None")
  | Some (PStr s) => Some s
  | Some _ => None
  end.

(** ** Sample surroundings *)

Definition no_env : pystr -> option pystr := fun _ => None.

Definition noon : datetime :=
  {| year := 2024; month := 3; day := 9; hour := 12; minute := 0;
     second := 5 |}.

(** A sample database: exact below U+0100, everything above printable
    and without case. *)
Definition sample_unicode : unicode :=
  {| isprintable :=
       fun c => negb (((127 <=? c) && (c <=? 160)) || (c =? 173))%N;
     lower_table := fun s => s;
     capitalize_table := fun s => s |}.

(** A sample token check: some digits, a colon, something after it. *)
Definition sample_token_check (t : pystr) : bool :=
  match t with
  | c :: 58%N :: _ :: _ => ((48 <=? c) && (c <=? 57))%N
  | _ => false
  end.

Definition sample_world (env : pystr -> option pystr)
    (service : request -> outcome) : world :=
  {| getenv := env;
     remote := service;
     now := noon;
     unicode_db := sample_unicode;
     validate_token := sample_token_check |}.

Definition anyone (t : option pystr) : message :=
  {| from_user := Some {| first_name := lit "Ada" |}; text := t |}.

Definition four_thousand : pystr := repeat 97%N 4000.

Definition hf_env : pystr -> option pystr :=
  fun k => if str_eqb k (lit "HUGGINGFACE_API_KEY") then Some (lit "hf_x")
           else None.

Definition token_env : pystr -> option pystr :=
  fun k => if str_eqb k (lit "TELEGRAM_TOKEN") then Some (lit "1:abc")
           else None.

(** The body [{weather:[{description:"clear sky"}], main:{temp:18.4}}]. *)
Definition paris_body : pyval :=
  PDict [ (lit "weather",
           PList [PDict [(lit "description", PStr (lit "clear sky"))]]);
          (lit "main",
           PDict [(lit "temp", PFloat (FFin false [1; 8; 4]%nat 2))]) ].

(** A generated text of 4000 characters. *)
Definition long_answer : pyval :=
  PList [PDict [(lit "generated_text", PStr four_thousand)]].

(** * Properties *)

Unset Implicit Arguments.
#[local] Arguments lit : simpl never.

(** ** The model on sample inputs *)

Example joke_success :
  Fun.cmd_joke
    (sample_world no_env
       (answering {| status_code := 200;
                     body := Some (PDict [(lit "error", PBool false);
                                          (lit "joke", PStr (lit "knock"))]) |}))
    (anyone (Some (lit "/joke")))
  = (Ok tt,
     [ Call (Get (lit "https://v2.jokeapi.dev/joke/Any?type=single"));
       Reply (PStr (lit "knock")) ]).
Proof. reflexivity. Qed.

Example quote_success :
  replies (trace (Fun.cmd_quote
    (sample_world no_env
       (answering {| status_code := 200;
                     body := Some (PList [PDict [(lit "q", PStr (lit "Begin"));
                                                 (lit "a", PStr (lit "Ann"))]]) |}))
    (anyone (Some (lit "/quote")))))
  = [Reply (PStr (34%N :: lit "Begin" ++ 34%N :: 32%N :: em_dash :: 32%N
                  :: lit "Ann"))].
Proof. reflexivity. Qed.

Example time_of_day :
  Utilities.cmd_time (sample_world no_env (fun _ => Failed))
    (anyone (Some (lit "/time")))
  = (Ok tt, [Reply (PStr (lit "Server time: 2024-03-09 12:00:05"))]).
Proof. reflexivity. Qed.

Example float_texts :
  float_repr (FFin false [1] (-3)) = lit "0.0001"
  /\ float_repr (FFin false [1] (-4)) = lit "1e-05"
  /\ float_repr (FFin false [1] 16) = lit "1000000000000000.0"
  /\ float_repr (FFin false [1] 17) = lit "1e+16"
  /\ float_repr (FFin true [1; 5] 0) = lit "-0.15"
  /\ float_repr (FFin false [0] 1) = lit "0.0".
Proof. repeat split; reflexivity. Qed.

Example str_repr_quotes :
  str_repr sample_unicode (lit "it's") = 34%N :: lit "it's" ++ [34%N]
  /\ str_repr sample_unicode (lit "plain") = lit "'plain'"
  /\ str_repr sample_unicode (10%N :: lit "a\b") = lit "'\na\\b'"
  /\ str_repr sample_unicode [160%N] = lit "'\xa0'".
Proof. repeat split; reflexivity. Qed.

(** A character the database has not printable is escaped by its code. *)
Example str_repr_line_separator (u : unicode) :
  isprintable u 8232 = false ->
  str_repr u [8232%N] = lit "'\u2028'".
Proof. intros H. unfold str_repr, repr_char. simpl. rewrite H. reflexivity. Qed.

(** With a token of the right shape the program polls: an update gets its
    handler, and an exception that leaves a handler is logged. *)
Example main_with_token :
  Main.main (sample_world token_env (fun _ => Failed))
    [ {| Main.command := lit "time"; Main.msg := anyone (Some (lit "/time")) |};
      {| Main.command := lit "todo"; Main.msg := anyone (Some (lit "/todo")) |};
      {| Main.command := lit "joke"; Main.msg := anyone (Some (lit "/joke")) |};
      {| Main.command := lit "weather";
         Main.msg := anyone (Some (lit "/weather Paris")) |} ]
  = (Ok tt,
     [ Reply (PStr (lit "Server time: 2024-03-09 12:00:05"));
       Call (Get (lit "https://v2.jokeapi.dev/joke/Any?type=single"));
       Reply (PStr (lit "Joke API error"));
       Unhandled AttributeError ]).
Proof. reflexivity. Qed.

(** ** The monad *)

Lemma quiet_json (r : response) : quiet (json r).
Proof. unfold json. destruct (body r); split; reflexivity || exact I. Qed.

Lemma quiet_get (v : pyval) (k : pystr) (d : pyval) : quiet (get v k d).
Proof. destruct v; split; reflexivity || exact I. Qed.

Lemma quiet_item (v : pyval) (k : pystr) : quiet (item v k).
Proof.
  destruct v; try (split; reflexivity || exact I).
  simpl. destruct (lookup k d); split; reflexivity || exact I.
Qed.

Lemma quiet_item0 (v : pyval) : quiet (item0 v).
Proof.
  destruct v as [| | | |[|c s]|[|x l]|d]; split; reflexivity || exact I.
Qed.

Lemma replies_or_raises_bind (A : Type) (m : M A) (k : A -> M unit) :
  quiet m -> (forall a, replies_or_raises (k a)) ->
  replies_or_raises (bind m k).
Proof.
  destruct m as [[a|e|] t]; unfold quiet; simpl; intros [-> He] Hk.
  - specialize (Hk a). destruct (k a) as [r t']. exact Hk.
  - exact He.
  - contradiction.
Qed.

Lemma replies_or_raises_reply (v : pyval) : replies_or_raises (reply v).
Proof. unfold reply. destruct (as_text v); reflexivity. Qed.

Lemma replies_or_raises_photo (p c : pyval) :
  replies_or_raises (reply_photo p c).
Proof.
  unfold reply_photo. destruct (as_text p); [|reflexivity].
  destruct c; try reflexivity; simpl; reflexivity.
Qed.

Create HintDb handlers.
#[local] Hint Resolve quiet_json quiet_get quiet_item quiet_item0
  replies_or_raises_reply replies_or_raises_photo : handlers.

Ltac after_call :=
  repeat first
    [ apply replies_or_raises_reply
    | apply replies_or_raises_photo
    | apply replies_or_raises_bind; [ auto with handlers | intros ? ]
    | solve [ auto with handlers ] ].

(** A GET, then what follows it, inside [try ... except: reply]. *)
Lemma get_then_reply (w : world) (url : pystr) (k : response -> M unit)
    (f : pystr) :
  (forall r, replies_or_raises (k r)) ->
  match remote w (Get url) with
  | Silent =>
      try_except (bind (requests_get w url) k) (reply (PStr f))
      = (Blocked, [Call (Get url)])
  | _ =>
      exists e, is_reply e = true
        /\ try_except (bind (requests_get w url) k) (reply (PStr f))
           = (Ok tt, [Call (Get url); e])
  end.
Proof.
  intros Hk. unfold requests_get.
  destruct (remote w (Get url)) as [|r|]; simpl.
  - exists (Reply (PStr f)). split; reflexivity.
  - specialize (Hk r). destruct (k r) as [[[]|y|] t']; simpl in *.
    + destruct t' as [|e [|e' t']]; try contradiction.
      exists e. split; [exact Hk | reflexivity].
    + destruct t' as [|e t']; [|contradiction].
      rewrite Hk. exists (Reply (PStr f)). split; reflexivity.
    + contradiction.
  - reflexivity.
Qed.

(** ** /help *)

(** C2 does not hold of the code: the help text names nine commands and
    nine are registered, but [meme] and [time] are registered and not
    named, and [todo] and [notes] are named and not registered. *)
Theorem help_text_differs_from_registrations (w : world) (m : message) :
  Main.cmd_help m = (Ok tt, [Reply (PStr Main.help_text)])
  /\ listed_commands Main.help_text
     = [ lit "start"; lit "help"; lit "ask"; lit "quote"; lit "joke";
         lit "weather"; lit "crypto"; lit "todo"; lit "notes" ]
  /\ Main.registered (Main.dp w)
     = [ lit "start"; lit "help"; lit "joke"; lit "quote"; lit "meme";
         lit "weather"; lit "crypto"; lit "time"; lit "ask" ]
  /\ mentions (Main.registered (Main.dp w)) (lit "meme") = true
  /\ mentions (listed_commands Main.help_text) (lit "meme") = false
  /\ mentions (Main.registered (Main.dp w)) (lit "time") = true
  /\ mentions (listed_commands Main.help_text) (lit "time") = false
  /\ mentions (listed_commands Main.help_text) (lit "todo") = true
  /\ mentions (Main.registered (Main.dp w)) (lit "todo") = false
  /\ mentions (listed_commands Main.help_text) (lit "notes") = true
  /\ mentions (Main.registered (Main.dp w)) (lit "notes") = false.
Proof. repeat split; reflexivity. Qed.

(** ** Startup *)

(** C9. Without the Telegram token (the variable is unset or empty) the
    program stops with [SystemExit] and its message before any update is
    taken: no handler runs, nothing is sent, no call is made. *)
Theorem no_token_no_start (w : world) (updates : list Main.update) :
  truthy (Main.TELEGRAM_TOKEN w) = false ->
  Main.main w updates
  = (Raised (SystemExit (lit "Please set TELEGRAM_TOKEN in .env file")), []).
Proof.
  intros H. unfold Main.main. rewrite H. reflexivity.
Qed.

Lemma no_token_no_start_witness :
  Main.main (sample_world no_env (fun _ => Failed))
    [ {| Main.command := lit "joke"; Main.msg := anyone None |} ]
  = (Raised (SystemExit (lit "Please set TELEGRAM_TOKEN in .env file")), []).
Proof.
  apply (no_token_no_start (sample_world no_env (fun _ => Failed))).
  reflexivity.
Defined.

(** ** The handlers that read an argument *)

(** C4 does not hold of the code: /weather and /ask read their argument
    with [message.get_args()], outside any [try]; the call raises
    [AttributeError], so for every message, with or without an argument,
    the handler ends there: no usage string is sent (and no call made). *)
Theorem usage_is_never_sent (w : world) (m : message) :
  Utilities.cmd_weather w m = (Raised AttributeError, [])
  /\ Ai.cmd_ask w m = (Raised AttributeError, []).
Proof. split; reflexivity. Qed.

(** C5 does not hold of the code: /ask hello, with no HuggingFace key in
    the environment, raises [AttributeError] at [message.get_args()], before
    the key is looked at; nothing is sent. *)
Theorem ask_hello_without_key :
  Ai.HUGGINGFACE_KEY (sample_world no_env (fun _ => Failed)) = None
  /\ Ai.cmd_ask (sample_world no_env (fun _ => Failed))
       (anyone (Some (lit "/ask hello")))
     = (Raised AttributeError, [])
  /\ replies (trace (Ai.cmd_ask (sample_world no_env (fun _ => Failed))
                       (anyone (Some (lit "/ask hello")))))
     = [].
Proof. repeat split; reflexivity. Qed.

(** C6 does not hold of the code: /ask hello, with a key, and a service
    that would answer with 4000 generated characters, raises
    [AttributeError] at [message.get_args()]: the service is not called and
    nothing is sent, truncated or not. *)
Theorem ask_never_reaches_the_service :
  truthy (Ai.HUGGINGFACE_KEY
            (sample_world hf_env
               (answering {| status_code := 200;
                             body := Some long_answer |}))) = true
  /\ Ai.cmd_ask
       (sample_world hf_env
          (answering {| status_code := 200; body := Some long_answer |}))
       (anyone (Some (lit "/ask hello")))
     = (Raised AttributeError, [])
  /\ calls (trace (Ai.cmd_ask
                     (sample_world hf_env
                        (answering {| status_code := 200;
                                      body := Some long_answer |}))
                     (anyone (Some (lit "/ask hello")))))
     = [].
Proof. repeat split; reflexivity. Qed.

(** C7 does not hold of the code: /crypto reads its argument with
    [message.get_args()], outside its [try]; the call raises
    [AttributeError], so for every message the handler ends there: no price
    query goes out, for [bitcoin] or any other id, and nothing is sent. *)
Theorem crypto_never_queries (w : world) (m : message) :
  Utilities.cmd_crypto w m = (Raised AttributeError, [])
  /\ calls (trace (Utilities.cmd_crypto w m)) = []
  /\ replies (trace (Utilities.cmd_crypto w m)) = [].
Proof. repeat split; reflexivity. Qed.

(** C8 does not hold of the code: /weather Paris, with a service that
    would answer 200 and
    [{weather:[{description:"clear sky"}], main:{temp:18.4}}], raises
    [AttributeError] at [message.get_args()]; the service is not called and
    no weather line is sent. *)
Theorem weather_paris_raises :
  Utilities.cmd_weather
    (sample_world no_env
       (answering {| status_code := 200; body := Some paris_body |}))
    (anyone (Some (lit "/weather Paris")))
  = (Raised AttributeError, []).
Proof. reflexivity. Qed.

(** C10 does not hold of the code: /crypto followed by blanks only, with a
    service that would answer with an empty object, raises
    [AttributeError] at [message.get_args()]; no query for an empty id goes
    out and [Coin not found] is not sent. *)
Theorem crypto_blank_argument_raises :
  Utilities.cmd_crypto
    (sample_world no_env
       (answering {| status_code := 200; body := Some (PDict []) |}))
    (anyone (Some (lit "/crypto   ")))
  = (Raised AttributeError, []).
Proof. reflexivity. Qed.

(** ** Missing fields *)

(** C1 does not hold of the code: /quote, answered 200 with a list whose
    first object has neither [q] nor [a], does not reply
    [Quote API error]; it formats the reply from the two [None] it got. *)
Theorem quote_formats_none (w : world) (m : message) (st : Z)
    (rest : list pyval) :
  Fun.cmd_quote
    (with_remote w
       (answering {| status_code := st;
                     body := Some (PList (PDict [] :: rest)) |}))
    m
  = (Ok tt,
     [ Call (Get (lit "https://zenquotes.io/api/random"));
       Reply (PStr (34%N :: lit "None" ++ 34%N :: 32%N :: em_dash :: 32%N
                    :: lit "None")) ]).
Proof. reflexivity. Qed.

(** ** Failures of the remote call *)

(** C3, as the code has it, for the handlers that get as far as their
    call (/joke, /quote, /meme).  When the call raises (network error,
    timeout), when the body is not JSON, and when the body is JSON that
    the handler cannot use, the handler makes its one call, sends the text
    of its [except] branch as its only reply, and lets no exception out,
    whatever the status of the answer. *)
Theorem failure_replies (h : fetching) (f : failure) (w : world)
    (m : message) :
  handles h f = true ->
  run h (with_remote w (failing_remote f)) m
  = (Ok tt, [Call (Get (endpoint h)); Reply (PStr (fallback h))]).
Proof.
  intros Hf. destruct f as [|st|st data].
  - destruct h; reflexivity.
  - destruct h; reflexivity.
  - simpl in Hf. destruct h.
    + (* joke *)
      unfold run, Fun.cmd_joke, requests_get. cbn.
      destruct data; try reflexivity.
      cbn in Hf |- *. destruct (lookup (lit "joke") d) as [v|];
        [|discriminate].
      unfold is_text in Hf. unfold reply at 1.
      destruct (as_text v); [discriminate | reflexivity].
    + (* quote *)
      unfold run, Fun.cmd_quote, requests_get. cbn.
      destruct data as [| | | |[|c s]|[|x l]|d]; try reflexivity.
      destruct x; try reflexivity. discriminate.
    + (* meme *)
      unfold run, Fun.cmd_meme, requests_get. cbn.
      destruct data; try reflexivity.
      cbn in Hf |- *. destruct (lookup (lit "url") d) as [p|];
        [|reflexivity].
      cbn. unfold is_text in Hf. unfold reply_photo.
      destruct (as_text p); [|reflexivity].
      cbn in Hf. destruct (lookup (lit "title") d) as [c|];
        [|discriminate].
      destruct c; try discriminate; reflexivity.
Qed.

Lemma failure_replies_witness :
  Fun.cmd_joke
    (with_remote (sample_world no_env (fun _ => Silent))
       (failing_remote CallRaises))
    (anyone (Some (lit "/joke")))
  = (Ok tt, [Call (Get Fun.joke_url); Reply (PStr (lit "Joke API error"))])
  /\ Fun.cmd_meme
       (with_remote (sample_world no_env (fun _ => Silent))
          (failing_remote
             (Unusable 200 (PDict [(lit "title", PStr (lit "cat"))]))))
       (anyone (Some (lit "/meme")))
     = (Ok tt, [Call (Get Fun.meme_url); Reply (PStr (lit "No meme for now"))]).
Proof.
  split.
  - apply (failure_replies Joke CallRaises
             (sample_world no_env (fun _ => Silent))
             (anyone (Some (lit "/joke")))).
    reflexivity.
  - apply (failure_replies Meme
             (Unusable 200 (PDict [(lit "title", PStr (lit "cat"))]))
             (sample_world no_env (fun _ => Silent))
             (anyone (Some (lit "/meme")))).
    reflexivity.
Defined.

(** C3, as stated, fails: the status of the answer is not looked at.
    /joke answered with status 500 and an error object replies
    [Couldn't fetch joke], which is not its documented failure text. *)
Lemma non_success_status_is_not_caught :
  Fun.cmd_joke
    (sample_world no_env
       (answering {| status_code := 500;
                     body := Some (PDict [(lit "error", PBool true)]) |}))
    (anyone (Some (lit "/joke")))
  = (Ok tt,
     [ Call (Get (lit "https://v2.jokeapi.dev/joke/Any?type=single"));
       Reply (PStr (lit "Couldn't fetch joke")) ])
  /\ lit "Couldn't fetch joke" <> fallback Joke.
Proof. split; [reflexivity | discriminate]. Qed.

(** * Further properties *)

(** ** The shape of a run *)

(** X1. /joke, /quote and /meme make exactly one call, to their own
    address.  If the service never answers, the handler never comes back
    from it (no timeout is set) and nothing is sent.  In every other case
    the handler ends without an exception and sends exactly one reply,
    after the call. *)
Theorem fetching_run_shape (h : fetching) (w : world) (m : message) :
  match remote w (Get (endpoint h)) with
  | Silent => run h w m = (Blocked, [Call (Get (endpoint h))])
  | _ =>
      exists e, is_reply e = true
        /\ run h w m = (Ok tt, [Call (Get (endpoint h)); e])
  end.
Proof.
  destruct h; cbn [run endpoint].
  - unfold Fun.cmd_joke. apply get_then_reply. intros r. after_call.
  - unfold Fun.cmd_quote. apply get_then_reply. intros r. after_call.
  - unfold Fun.cmd_meme. apply get_then_reply. intros r. after_call.
Qed.

(** X2. /joke, /quote and /meme never look at the status of the answer:
    two answers with the same body give the same run. *)
Theorem status_is_ignored (h : fetching) (w : world) (m : message)
    (st st' : Z) (b : option pyval) :
  run h (with_remote w (answering {| status_code := st; body := b |})) m
  = run h (with_remote w (answering {| status_code := st'; body := b |})) m.
Proof. destruct h; reflexivity. Qed.

(** ** What each handler replies to an answer *)






